(** * Dashboard.jsx: the polling dashboard of the federated fraud-detection
    front end.

    The component keeps four pieces of React state ([metrics], [status],
    [loading], [error]), refreshes them from two read endpoints every five
    seconds, and renders them as alerts, metric cards and chips.  This file
    embeds

    - the JavaScript number formatting the render code relies on
      ([Number.prototype.toFixed], [toExponential], [Number::toString]),
      over IEEE 754 binary64 values;
    - the state and the [fetchData] continuation, in a small state and
      exception monad with [try]/[catch]/[finally];
    - the mount effect against a host timer table with a virtual clock;
    - the render function, as a fallible function to a tree of alerts,
      cards and chips;

    and then states and proves the properties of the specification, and
    further properties of the component read off its code. *)

From Stdlib Require Import ZArith String Ascii List Lia Bool.
From Stdlib Require Import Floats.SpecFloat Numbers.DecimalString.
Import ListNotations.

Open Scope string_scope.
Open Scope Z_scope.

(** ** JavaScript numbers

    A JavaScript number is an IEEE 754 binary64 value.  [spec_float] is the
    Standard Library's specification of such values: signed zeros,
    infinities, NaN, and finite values [(-1)^s * m * 2^e]. *)

Module JS.

Definition number : Type := spec_float.

Definition prec : Z := 53.
Definition emax : Z := 1024.

Definition NaN : number := S754_nan.

(** [x * y], rounded to nearest even as the language prescribes. *)
Definition mul (x y : number) : number := SFmul prec emax x y.

(** [x > y]; false when an operand is NaN. *)
Definition gtb (x y : number) : bool := SFltb y x.

(** *** Exact values as fractions

    The magnitude of a finite number is kept as a fraction [(a, b)] of
    positive integers, so that the decimal conversions below are exact. *)

Definition ratio : Type := (Z * Z)%type.

Definition magnitude (m : positive) (e : Z) : ratio :=
  if 0 <=? e then (Zpos m * 2 ^ e, 1) else (Zpos m, 2 ^ (- e)).

(** [scale10 r j] is [r / 10^j]. *)
Definition scale10 (r : ratio) (j : Z) : ratio :=
  (fst r * 10 ^ Z.max 0 (- j), snd r * 10 ^ Z.max 0 j).

Definition floor_ratio (r : ratio) : Z := fst r / snd r.

(** The integer nearest to [r]; of two equally near, the larger. *)
Definition round_half_up (r : ratio) : Z := (2 * fst r + snd r) / (2 * snd r).

(** [z <= r] for an integer [z]. *)
Definition ratio_geb (r : ratio) (z : Z) : bool := z * snd r <=? fst r.

Definition nb_digits10 (z : Z) : Z :=
  Z.of_nat (Decimal.nb_digits (N.to_uint (Z.to_N z))).

(** The integer [d] with [10^d <= r < 10^(d+1)], for [r > 0]. *)
Definition log10_floor (r : ratio) : Z :=
  let d := nb_digits10 (fst r) - nb_digits10 (snd r) in
  if ratio_geb (scale10 r d) 1 then d else d - 1.

(** The double nearest to [s * 10^j], for [s > 0]: what reading the decimal
    literal gives. *)
Definition of_decimal (s j : Z) : number :=
  let '(a, b) := scale10 (s, 1) (- j) in
  SFdiv prec emax (S754_finite false (Z.to_pos a) 0) (S754_finite false (Z.to_pos b) 0).

Definition of_Z (z : Z) : number := binary_normalize prec emax z 0 false.

(** *** Digit strings *)

Definition digits (n : Z) : string := NilZero.string_of_uint (N.to_uint (Z.to_N n)).

Fixpoint zeros (k : nat) : string :=
  match k with
  | O => ""
  | S k' => String "0" (zeros k')
  end.

Definition sign_string (s : bool) : string := if s then "-" else "".

(** *** Number::toString (radix 10)

    The digits are the shortest decimal [s * 10^(n-k)], with [k] digits,
    that reads back as the same double; of two candidates of that length
    the nearer one, and on a tie the even one. *)

Definition reads_back (x : number) (s j : Z) : bool := SFeqb (of_decimal s j) x.

Fixpoint shortest_from (fuel : nat) (k : Z) (x : number) (r : ratio) (n0 : Z)
  : Z * Z * Z :=
  let t := scale10 r (n0 - k) in
  let lo := floor_ratio t in
  let rem := fst t mod snd t in
  let hi := lo + 1 in
  let ok_lo := reads_back x lo (n0 - k) in
  let ok_hi := if rem =? 0 then false else reads_back x hi (n0 - k) in
  let take_lo := (lo, k, n0) in
  let take_hi := if hi =? 10 ^ k then (10 ^ (k - 1), k, n0 + 1) else (hi, k, n0) in
  match ok_lo, ok_hi with
  | true, false => take_lo
  | false, true => take_hi
  | true, true =>
      match 2 * rem ?= snd t with
      | Lt => take_lo
      | Gt => take_hi
      | Eq => if Z.even lo then take_lo else take_hi
      end
  | false, false =>
      match fuel with
      | O => take_lo
      | S fuel' => shortest_from fuel' (k + 1) x r n0
      end
  end.

(** Seventeen significant digits always identify a double, so the search
    ends before the fuel does. *)
Definition shortest (m : positive) (e : Z) : Z * Z * Z :=
  let r := magnitude m e in
  shortest_from 16 1 (binary_round prec emax false m e) r (log10_floor r + 1).

Definition exponent_string (e : Z) : string :=
  (if 0 <=? e then "+" else "-") ++ digits (Z.abs e).

Definition format_shortest (s k n : Z) : string :=
  let d := digits s in
  if (-5 <=? n) && (n <=? 21) then
    if k <=? n then d ++ zeros (Z.to_nat (n - k))
    else if 0 <? n then
      substring 0 (Z.to_nat n) d ++ "." ++ substring (Z.to_nat n) (Z.to_nat (k - n)) d
    else "0." ++ zeros (Z.to_nat (- n)) ++ d
  else
    (if k =? 1 then d
     else substring 0 1 d ++ "." ++ substring 1 (Z.to_nat (k - 1)) d)
    ++ "e" ++ exponent_string (n - 1).

Definition Number_toString (x : number) : string :=
  match x with
  | S754_nan => "NaN"
  | S754_zero _ => "0"
  | S754_infinity s => sign_string s ++ "Infinity"
  | S754_finite s m e =>
      let '(d, k, n) := shortest m e in
      sign_string s ++ format_shortest d k n
  end.

(** *** Number.prototype.toFixed

    [fixed_point n f] writes the integer [n] with a decimal point before
    its last [f] digits, padding with zeros on the left up to [f + 1]
    digits.  The call sites pass 0, 1, 2 and 4 fraction digits, inside the
    range 0..100 outside which the method raises a RangeError. *)

Definition fixed_point (n : Z) (f : nat) : string :=
  let m := digits n in
  match f with
  | O => m
  | _ =>
      let m := if (String.length m <=? f)%nat
               then zeros (f + 1 - String.length m) ++ m else m in
      let k := String.length m in
      substring 0 (k - f) m ++ "." ++ substring (k - f) f m
  end.

Definition toFixed (f : nat) (x : number) : string :=
  match x with
  | S754_nan | S754_infinity _ => Number_toString x
  | S754_zero _ => fixed_point 0 f
  | S754_finite s m e =>
      let r := magnitude m e in
      if ratio_geb r (10 ^ 21) then Number_toString x
      else sign_string s ++ fixed_point (round_half_up (scale10 r (- Z.of_nat f))) f
  end.

(** *** Number.prototype.toExponential *)

Definition exponential (n : Z) (f : nat) (e : Z) : string :=
  let m := digits n in
  (match f with
   | O => m
   | _ => substring 0 1 m ++ "." ++ substring 1 f m
   end) ++ "e" ++ exponent_string e.

Definition toExponential (f : nat) (x : number) : string :=
  match x with
  | S754_nan | S754_infinity _ => Number_toString x
  | S754_zero _ => zeros 1 ++ (match f with O => "" | _ => "." ++ zeros f end) ++ "e+0"
  | S754_finite s m e =>
      let r := magnitude m e in
      let e0 := log10_floor r in
      let n := round_half_up (scale10 r (e0 - Z.of_nat f)) in
      sign_string s ++
      (if n =? 10 ^ (Z.of_nat f + 1) then exponential (10 ^ Z.of_nat f) f (e0 + 1)
       else exponential n f e0)
  end.

End JS.

(** ** Property values

    A numeric property read from a response is a number, [null], or missing
    ([undefined]).  The operators the component applies to such a value
    are modelled on these three cases. *)

Inductive field : Type :=
| undefined
| null
| num (x : JS.number).

(** ToNumber, as applied by [*] and [>]. *)
Definition ToNumber (v : field) : JS.number :=
  match v with
  | undefined => JS.NaN
  | null => JS.of_Z 0
  | num x => x
  end.

(** [v?.toFixed(f)] and [v?.toExponential(f)]: [None] stands for the
    [undefined] the optional chain yields on a nullish receiver. *)
Definition opt_toFixed (f : nat) (v : field) : option string :=
  match v with
  | num x => Some (JS.toFixed f x)
  | _ => None
  end.

Definition opt_toExponential (f : nat) (v : field) : option string :=
  match v with
  | num x => Some (JS.toExponential f x)
  | _ => None
  end.

(** A string is truthy unless it is empty. *)
Definition truthy (s : string) : bool := negb (s =? "")%string.

(** [a || b] where [a] is a string or [undefined]. *)
Definition or_else (a : option string) (b : string) : string :=
  match a with
  | Some s => if truthy s then s else b
  | None => b
  end.

(** ** Data model *)

(** [federated_model] and [improvement] carry the same two scores. *)
Record Scores : Type := { auc : field; recall : field }.

Record PrivacyParams : Type := {
  epsilon : field;
  delta : field;
  noise_multiplier : field;
  l2_norm_clip : field
}.

Record MembershipInference : Type := { defense_success_rate : field }.
Record ModelInversion : Type := { defense_score : field }.

(** The two nested attack results are read through [?.], so they may be
    missing. *)
Record PrivacyAttacks : Type := {
  overall_defense_rate : field;
  membership_inference : option MembershipInference;
  model_inversion : option ModelInversion
}.

(** A metrics snapshot with the three objects the render code
    dereferences unguarded ([federated_model], [improvement] and
    [privacy_metrics]); [privacy_attacks] is guarded by [attacks &&]. *)
Record MetricsSnapshot : Type := {
  federated_model : Scores;
  improvement : Scores;
  privacy_metrics : PrivacyParams;
  communication_cost_mb : field;
  privacy_attacks : option PrivacyAttacks
}.

(** The metrics object as it arrives and is stored: any of the three
    objects may be missing, and the render code finds out only when it
    reads through them. *)
Module Payload.
Record t : Type := {
  federated_model : option Scores;
  improvement : option Scores;
  privacy_metrics : option PrivacyParams;
  communication_cost_mb : field;
  privacy_attacks : option PrivacyAttacks
}.
End Payload.

(** A snapshot is a payload in which nothing is missing. *)
Definition complete (m : MetricsSnapshot) : Payload.t :=
  {| Payload.federated_model := Some (federated_model m);
     Payload.improvement := Some (improvement m);
     Payload.privacy_metrics := Some (privacy_metrics m);
     Payload.communication_cost_mb := communication_cost_mb m;
     Payload.privacy_attacks := privacy_attacks m |}.

(** A property on which a method is called without a guard: a numeric
    property as above, or a value of another kind (a string, say), which
    has no [toFixed]. *)
Inductive property : Type :=
| plain (v : field)
| other_value.

Coercion plain : field >-> property.

(** [tag] is the [status] property of the status object. *)
Record StatusSnapshot : Type := {
  tag : string;
  message : string;
  progress_percentage : property
}.

(** The four [useState] cells, with their initial values.  In [metrics]
    and [status], [None] is [null] (or an empty body that was stored). *)
Record ViewState : Type := {
  metrics : option Payload.t;
  status : option StatusSnapshot;
  loading : bool;
  error : option string
}.

Definition initial : ViewState :=
  {| metrics := None; status := None; loading := true; error := None |}.

(** ** Effects: state and exceptions *)

(** An exception object: every [Error] has a string [message]. *)
Record Error : Type := { err_message : string }.

(** What a statement throws, or a promise is rejected with: an exception
    object, or nothing at all ([Promise.reject()] rejects with
    [undefined], and [null] can be thrown like any value). *)
Inductive reason : Type :=
| reason_undefined
| reason_null
| reason_error (e : Error).

Coercion reason_error : Error >-> reason.

Inductive completion (A : Type) : Type :=
| Normal (a : A)
| Thrown (e : reason).
Arguments Normal {A} a.
Arguments Thrown {A} e.

Definition Effect (A : Type) : Type := ViewState -> completion A * ViewState.

Definition ret {A} (a : A) : Effect A := fun s => (Normal a, s).

Definition throw {A} (e : reason) : Effect A := fun s => (Thrown e, s).

Definition bind {A B} (c : Effect A) (k : A -> Effect B) : Effect B :=
  fun s =>
    match c s with
    | (Normal a, s') => k a s'
    | (Thrown e, s') => (Thrown e, s')
    end.

Notation "x <- c ;; k" := (bind c (fun x => k))
  (at level 61, c at next level, right associativity).
Notation "c ;; k" := (bind c (fun _ => k))
  (at level 61, right associativity).

(** [try body catch (err) handler finally finalizer]: the finalizer runs
    on every path; when it completes normally the completion of the body,
    or of the handler, stands. *)
Definition try_catch_finally {A} (body : Effect A) (handler : reason -> Effect A)
  (finalizer : Effect unit) : Effect A :=
  fun s =>
    let '(r, s1) :=
      match body s with
      | (Normal a, s') => (Normal a, s')
      | (Thrown e, s') => handler e s'
      end in
    match finalizer s1 with
    | (Normal _, s2) => (r, s2)
    | (Thrown e, s2) => (Thrown e, s2)
    end.

Definition setMetrics (m : option Payload.t) : Effect unit :=
  fun s => (Normal tt, {| metrics := m; status := status s;
                          loading := loading s; error := error s |}).

Definition setStatus (v : option StatusSnapshot) : Effect unit :=
  fun s => (Normal tt, {| metrics := metrics s; status := v;
                          loading := loading s; error := error s |}).

Definition setLoading (b : bool) : Effect unit :=
  fun s => (Normal tt, {| metrics := metrics s; status := status s;
                          loading := b; error := error s |}).

Definition setError (e : option string) : Effect unit :=
  fun s => (Normal tt, {| metrics := metrics s; status := status s;
                          loading := loading s; error := e |}).

(** ** Promises, as they have settled *)

Inductive settled (A : Type) : Type :=
| fulfilled (v : A)
| rejected (why : reason).
Arguments fulfilled {A} v.
Arguments rejected {A} why.

(** A response object.  Its [data] is whatever the server sent: [None]
    stands for a body that is [null] or empty, which the component stores
    like any other. *)
Record Response (A : Type) : Type := { data : option A }.
Arguments data {A} r.

(** [err.message]: reading a property of [undefined] or [null] throws a
    TypeError. *)
Definition read_message (err : reason) : Effect string :=
  match err with
  | reason_error e => ret (err_message e)
  | reason_undefined =>
      throw {| err_message := "Cannot read properties of undefined (reading 'message')" |}
  | reason_null =>
      throw {| err_message := "Cannot read properties of null (reading 'message')" |}
  end.

(** A response that carries [v]. *)
Definition respond {A} (v : A) : Response A := {| data := Some v |}.

(** [p.catch(() => null)] *)
Definition catch_null {A} (p : settled A) : settled (option A) :=
  match p with
  | fulfilled v => fulfilled (Some v)
  | rejected _ => fulfilled None
  end.

(** [Promise.all([p, q])]: fulfilled with both values, or rejected with
    the reason of a rejected member.  (When both are rejected the language
    takes the one that was rejected first; [fetchData] passes a first
    member that cannot be rejected.) *)
Definition Promise_all {A B} (p : settled A) (q : settled B) : settled (A * B) :=
  match p, q with
  | fulfilled a, fulfilled b => fulfilled (a, b)
  | rejected e, _ => rejected e
  | _, rejected e => rejected e
  end.

Definition await {A} (p : settled A) : Effect A :=
  match p with
  | fulfilled v => ret v
  | rejected e => throw e
  end.

(** ** fetchData

    One fetch cycle, from the point where the two requests have settled:
    [getMetrics] as [m], [getStatus] as [st]. *)
Definition fetchData (m : settled (Response Payload.t))
  (st : settled (Response StatusSnapshot)) : Effect unit :=
  try_catch_finally
    (res <- await (Promise_all (catch_null m) st) ;;
     let '(metricsRes, statusRes) := res in
     (match metricsRes with
      | Some r => setMetrics (data r)
      | None => ret tt
      end) ;;
     setStatus (data statusRes) ;;
     setError None)
    (fun err => msg <- read_message err ;; setError (Some msg))
    (setLoading false).

(** How the two requests of one cycle settled. *)
Definition outcome : Type :=
  (settled (Response Payload.t) * settled (Response StatusSnapshot))%type.

(** The state after a cycle. *)
Definition cycle (o : outcome) (s : ViewState) : ViewState :=
  snd (fetchData (fst o) (snd o) s).

(** The state after the cycles of [os] have completed, in that order.
    Cycles may overlap in time; what each one does to the state happens in
    one piece, after its requests have settled. *)
Definition cycles (os : list outcome) (s : ViewState) : ViewState :=
  fold_left (fun s o => cycle o s) os s.

(** ** The host's interval timers

    Time is a virtual clock in milliseconds.  The host keeps a table of
    repeating timers and a log of the moments at which a fetch cycle was
    started.  The only callback the component ever hands to the host is
    [fetchData]. *)

Inductive callback : Type := fetchData_callback.

Record timer : Type := {
  handle : nat;
  action : callback;
  delay : Z;
  due : Z
}.

Record host : Type := {
  clock : Z;
  timers : list timer;
  next_handle : nat;
  started : list Z
}.

Definition boot (t0 : Z) : host :=
  {| clock := t0; timers := []; next_handle := 1; started := [] |}.

(** Calling [fetchData] issues the two requests at once: a cycle starts. *)
Definition invoke (cb : callback) (h : host) : host :=
  match cb with
  | fetchData_callback =>
      {| clock := clock h; timers := timers h; next_handle := next_handle h;
         started := started h ++ [clock h] |}
  end.

Definition setInterval (cb : callback) (ms : Z) (h : host) : nat * host :=
  (next_handle h,
   {| clock := clock h;
      timers := timers h ++ [{| handle := next_handle h; action := cb;
                                delay := ms; due := clock h + ms |}];
      next_handle := S (next_handle h);
      started := started h |}).

Definition clearInterval (id : nat) (h : host) : host :=
  {| clock := clock h;
     timers := filter (fun t => negb (handle t =? id)%nat) (timers h);
     next_handle := next_handle h;
     started := started h |}.

Definition reschedule (now : Z) (t : timer) : timer :=
  if due t =? now
  then {| handle := handle t; action := action t; delay := delay t;
          due := due t + delay t |}
  else t.

(** Run the callbacks of the timers that are due, in table order, and
    schedule their next firing. *)
Definition fire (h : host) : host :=
  let now := clock h in
  let due_now := filter (fun t => due t =? now) (timers h) in
  let h' := {| clock := now; timers := map (reschedule now) (timers h);
               next_handle := next_handle h; started := started h |} in
  fold_left (fun h t => invoke (action t) h) due_now h'.

(** One millisecond passes. *)
Definition tick (h : host) : host :=
  fire {| clock := clock h + 1; timers := timers h;
          next_handle := next_handle h; started := started h |}.

Fixpoint advance (n : nat) (h : host) : host :=
  match n with
  | O => h
  | S n' => advance n' (tick h)
  end.

(** ** The mount effect

    [useEffect(() => { fetchData(); const interval = setInterval(fetchData,
    5000); return () => clearInterval(interval); }, [])]: with the empty
    dependency list the body runs once, when the component is mounted, and
    the function it returns runs when the component is unmounted. *)
Definition effect (h : host) : host * (host -> host) :=
  let h1 := invoke fetchData_callback h in
  let '(interval, h2) := setInterval fetchData_callback 5000 h1 in
  (h2, clearInterval interval).

Definition mount (h : host) : host * (host -> host) := effect h.

Definition unmount (cleanup : host -> host) (h : host) : host := cleanup h.

(** A whole life of the component: mounted at [t0], displayed for [n]
    milliseconds, removed, and the page living on for [k] more. *)
Definition lifetime (t0 : Z) (n k : nat) : host :=
  let '(h, cleanup) := mount (boot t0) in
  advance k (unmount cleanup (advance n h)).

(** The moments [t0], [t0 + 5000], ... : [count] of them. *)
Definition schedule (t0 : Z) (count : nat) : list Z :=
  map (fun i => t0 + 5000 * Z.of_nat i) (seq 0 count).

(** The host [n] milliseconds after the component was mounted at [t0],
    while it is still displayed: one timer, due at the next multiple of
    5000 ms, and one cycle started for each multiple reached so far. *)
Definition mounted_host (t0 : Z) (n : nat) : host :=
  {| clock := t0 + Z.of_nat n;
     timers := [{| handle := 1; action := fetchData_callback; delay := 5000;
                   due := t0 + 5000 * (Z.of_nat (n / 5000) + 1) |}];
     next_handle := 2;
     started := schedule t0 (S (n / 5000)) |}.

(** ** Rendering *)

Module Severity.
Inductive t : Type := success | info | error | warning.
End Severity.

Record Alert : Type := { severity : Severity.t; text : string }.

(** What a [MetricCard] shows: icon and colour are constants of the call
    site and are left out. *)
Record Card : Type := {
  title : string;
  value : string;
  chip : option string;
  caption : option string
}.

Record Panel : Type := {
  chips : list string;
  defense : option (string * string * string)
}.

Inductive Screen : Type :=
| Spinner
| Page (status_alert : option Alert) (train_first : option Alert)
       (content : option (list Card * Panel)).

Definition severity_of (tag : string) : Severity.t :=
  if (tag =? "completed")%string then Severity.success
  else if (tag =? "training")%string then Severity.info
  else if (tag =? "error")%string then Severity.error
  else Severity.warning.

(** [v.toFixed(f)] on a property that need not be a number: reading
    [toFixed] of [undefined] or [null] throws a TypeError, and so does
    calling the [toFixed] that a value of another kind does not have. *)
Definition call_toFixed (f : nat) (v : property) : completion string :=
  match v with
  | plain (num x) => Normal (JS.toFixed f x)
  | plain undefined =>
      Thrown {| err_message := "Cannot read properties of undefined (reading 'toFixed')" |}
  | plain null =>
      Thrown {| err_message := "Cannot read properties of null (reading 'toFixed')" |}
  | other_value =>
      Thrown {| err_message := "status.progress_percentage.toFixed is not a function" |}
  end.

(** The children of the status alert: the message, a space, and the
    progress when the tag is [training]. *)
Definition status_text (st : StatusSnapshot) : completion string :=
  if (tag st =? "training")%string then
    match call_toFixed 0 (progress_percentage st) with
    | Normal p => Normal (message st ++ " " ++ "(" ++ p ++ "%)")
    | Thrown e => Thrown e
    end
  else Normal (message st ++ " ").

Definition render_status (st : StatusSnapshot) : completion Alert :=
  match status_text st with
  | Normal s => Normal {| severity := severity_of (tag st); text := s |}
  | Thrown e => Thrown e
  end.

Definition train_first_alert : Alert :=
  {| severity := Severity.warning;
     text := "No training data available. Please train the model first." |}.

(** [error && !metrics && <Alert ...>] *)
Definition render_train_first (s : ViewState) : option Alert :=
  match error s with
  | Some e =>
      if truthy e then
        match metrics s with
        | None => Some train_first_alert
        | Some _ => None
        end
      else None
  | None => None
  end.

(** [improvement !== undefined && improvement > 0 && <Chip label=... />],
    with the label [`${improvement > 0 ? '+' : ''}${improvement.toFixed(1)}%`].
    Past the guard the value is a number: [null > 0] is false. *)
Definition improvement_chip (v : field) : option string :=
  if (match v with undefined => false | _ => true end)
     && JS.gtb (ToNumber v) (JS.of_Z 0)
  then
    match v with
    | num x =>
        Some ((if JS.gtb x (JS.of_Z 0) then "+" else "") ++ JS.toFixed 1 x ++ "%")
    | _ => None
    end
  else None.

Definition MetricCard (title value : string) (improvement : field)
  (subtitle : option string) : Card :=
  {| title := title; value := value;
     chip := improvement_chip improvement;
     caption := match subtitle with
                | Some s => if truthy s then Some s else None
                | None => None
                end |}.

(** The four headline cards. *)
Definition auc_card (m : MetricsSnapshot) : Card :=
  MetricCard "Federated AUC"
    (or_else (opt_toFixed 4 (auc (federated_model m))) "N/A")
    (auc (improvement m)) None.

Definition recall_card (m : MetricsSnapshot) : Card :=
  MetricCard "Recall"
    (or_else (opt_toFixed 4 (recall (federated_model m))) "N/A")
    (recall (improvement m)) None.

Definition budget_card (m : MetricsSnapshot) : Card :=
  MetricCard "Privacy Budget (ε)"
    (or_else (opt_toFixed 2 (epsilon (privacy_metrics m))) "N/A")
    undefined (Some "Lower is better").

(** [`${metrics.communication_cost_mb?.toFixed(2) || 0} MB`]: the fallback
    is the number 0, which the template literal prints. *)
Definition cost_card (m : MetricsSnapshot) : Card :=
  MetricCard "Communication Cost"
    (or_else (opt_toFixed 2 (communication_cost_mb m))
             (JS.Number_toString (JS.of_Z 0)) ++ " MB")
    undefined (Some "Per round").

Definition render_cards (m : MetricsSnapshot) : list Card :=
  [ auc_card m; recall_card m; budget_card m; cost_card m ].

(** The four chips of the privacy panel. *)
Definition epsilon_chip (privacy : PrivacyParams) : string :=
  "ε = " ++ or_else (opt_toFixed 2 (epsilon privacy)) "N/A".

Definition delta_chip (privacy : PrivacyParams) : string :=
  "δ = " ++ or_else (opt_toExponential 2 (delta privacy)) "N/A".

Definition noise_chip (privacy : PrivacyParams) : string :=
  "Noise: " ++ or_else (opt_toFixed 2 (noise_multiplier privacy)) "N/A".

Definition clip_chip (privacy : PrivacyParams) : string :=
  "Clip: " ++ or_else (opt_toFixed 1 (l2_norm_clip privacy)) "N/A".

(** [(v * 100).toFixed(1)] followed by the percent sign. *)
Definition percent (v : field) : string :=
  JS.toFixed 1 (JS.mul (ToNumber v) (JS.of_Z 100)) ++ "%".

(** [attacks.membership_inference?.defense_success_rate] and
    [attacks.model_inversion?.defense_score] *)
Definition membership_rate (a : PrivacyAttacks) : field :=
  match membership_inference a with
  | Some mi => defense_success_rate mi
  | None => undefined
  end.

Definition inversion_score (a : PrivacyAttacks) : field :=
  match model_inversion a with
  | Some inv => defense_score inv
  | None => undefined
  end.

Definition PrivacyMetrics (privacy : PrivacyParams) (attacks : option PrivacyAttacks) : Panel :=
  {| chips := [ epsilon_chip privacy; delta_chip privacy;
                noise_chip privacy; clip_chip privacy ];
     defense :=
       match attacks with
       | Some a =>
           Some (percent (overall_defense_rate a),
                 percent (membership_rate a),
                 percent (inversion_score a))
       | None => None
       end |}.

Definition render_content (m : MetricsSnapshot) : list Card * Panel :=
  (render_cards m, PrivacyMetrics (privacy_metrics m) (privacy_attacks m)).

(** Reading [metrics.federated_model.auc], [metrics.improvement.auc] and
    [metrics.privacy_metrics.epsilon], in the order of the cards: a missing
    object makes the property access throw a TypeError. *)
Definition shape (d : Payload.t) : completion MetricsSnapshot :=
  match Payload.federated_model d with
  | None => Thrown {| err_message := "Cannot read properties of undefined (reading 'auc')" |}
  | Some fm =>
      match Payload.improvement d with
      | None => Thrown {| err_message := "Cannot read properties of undefined (reading 'auc')" |}
      | Some imp =>
          match Payload.privacy_metrics d with
          | None =>
              Thrown {| err_message := "Cannot read properties of undefined (reading 'epsilon')" |}
          | Some pm =>
              Normal {| federated_model := fm; improvement := imp;
                        privacy_metrics := pm;
                        communication_cost_mb := Payload.communication_cost_mb d;
                        privacy_attacks := Payload.privacy_attacks d |}
          end
      end
  end.

(** [metrics && (...)] *)
Definition render_metrics (stored : option Payload.t)
  : completion (option (list Card * Panel)) :=
  match stored with
  | Some d =>
      match shape d with
      | Normal m => Normal (Some (render_content m))
      | Thrown e => Thrown e
      end
  | None => Normal None
  end.

(** What the component returns, as a function of its four state cells. *)
Definition Dashboard (s : ViewState) : completion Screen :=
  if loading s then Normal Spinner
  else
    match (match status s with
           | Some st =>
               match render_status st with
               | Normal a => Normal (Some a)
               | Thrown e => Thrown e
               end
           | None => Normal None
           end) with
    | Thrown e => Thrown e
    | Normal banner =>
        match render_metrics (metrics s) with
        | Thrown e => Thrown e
        | Normal content => Normal (Page banner (render_train_first s) content)
        end
    end.

(** ** Notions used in the statements *)

(** [n] is the integer nearest to the fraction [r], the larger one when two
    are equally near: [n - 1/2 <= r < n + 1/2]. *)
Definition nearest (r : JS.ratio) (n : Z) : Prop :=
  2 * n * snd r <= 2 * fst r + snd r < 2 * (n + 1) * snd r.

(** A property is absent when it is missing or [null]. *)
Definition absent (v : field) : Prop := v = undefined \/ v = null.

(** A number shown with [f] fraction digits, or a fallback text when the
    property is absent. *)
Definition shown (f : nat) (v : field) (fallback : string) : string :=
  match v with
  | num x => JS.toFixed f x
  | _ => fallback
  end.

(** The double written [42.3]. *)
Definition forty_two_point_three : JS.number := JS.of_decimal 423 (-1).

(** ** Sample inputs *)

Definition network_error : Error := {| err_message := "Network Error" |}.

(** An exception object whose message is the empty string, as
    [new Error()] has. *)
Definition silent_error : Error := {| err_message := "" |}.

Definition done_status : StatusSnapshot :=
  {| tag := "completed"; message := "Done"; progress_percentage := undefined |}.

Definition training_status : StatusSnapshot :=
  {| tag := "training"; message := "Round 3 of 10";
     progress_percentage := num forty_two_point_three |}.

(** Metrics without a privacy budget, a communication cost or attack
    results. *)
Definition sparse_metrics : MetricsSnapshot :=
  {| federated_model := {| auc := num (JS.of_decimal 95 (-2));
                           recall := num (JS.of_decimal 88 (-2)) |};
     improvement := {| auc := num (JS.of_decimal 52 (-1)); recall := undefined |};
     privacy_metrics := {| epsilon := undefined; delta := undefined;
                           noise_multiplier := undefined; l2_norm_clip := undefined |};
     communication_cost_mb := undefined;
     privacy_attacks := None |}.

(** The state after a first cycle in which only the status arrived. *)
Definition after_status (st : StatusSnapshot) : ViewState :=
  cycle (rejected network_error, fulfilled (respond st)) initial.

(** The state after a first cycle that brought [sparse_metrics]. *)
Definition after_metrics : ViewState :=
  cycle (fulfilled (respond (complete sparse_metrics)), fulfilled (respond done_status)) initial.

(** The state after a first cycle whose status request failed with
    [silent_error]. *)
Definition after_silent_failure : ViewState :=
  cycle (rejected network_error, rejected silent_error) initial.

(** The state after a first cycle whose status request failed with
    [network_error]. *)
Definition after_failure : ViewState :=
  cycle (rejected network_error, rejected network_error) initial.

(** The sentence of the specification on the warning banner, read on one
    state: on the rendered page the banner is present exactly when the
    stored metrics are null and the error field is not null. *)
Definition train_first_iff_error_non_null (s : ViewState) : Prop :=
  forall banner tf content,
    Dashboard s = Normal (Page banner tf content) ->
    (tf <> None <-> metrics s = None /\ error s <> None).

(** The sentence of the specification on absent fields, read on the
    communication-cost card: an absent cost is shown as the text N/A. *)
Definition absent_cost_shows_NA (m : MetricsSnapshot) : Prop :=
  absent (communication_cost_mb m) -> value (cost_card m) = "N/A".

(** ** Notions used in the further properties *)

(** Both requests of the cycle were fulfilled. *)
Definition both_fulfilled (o : outcome) : bool :=
  match o with
  | (fulfilled _, fulfilled _) => true
  | _ => false
  end.

(** The status request of the cycle was fulfilled. *)
Definition status_fulfilled (o : outcome) : bool :=
  match snd o with
  | fulfilled _ => true
  | rejected _ => false
  end.

(** What the two requests brought, if anything. *)
Definition fetched_metrics (o : outcome) : option Payload.t :=
  match fst o with
  | fulfilled r => data r
  | rejected _ => None
  end.

Definition fetched_status (o : outcome) : option StatusSnapshot :=
  match snd o with
  | fulfilled r => data r
  | rejected _ => None
  end.

(** The status request was rejected with [undefined] or [null]. *)
Definition rejected_without_reason (o : outcome) : bool :=
  match snd o with
  | rejected reason_undefined | rejected reason_null => true
  | _ => false
  end.

(** What the cycle writes to the error cell when it writes to it: null
    after a fulfilled status request, the message of the exception after
    a rejected one. *)
Definition reported_error (o : outcome) : option string :=
  match snd o with
  | rejected (reason_error e) => Some (err_message e)
  | _ => None
  end.

(** A fulfilled metrics request that is stored brings a payload. *)
Definition brings_payload (o : outcome) : bool :=
  match o with
  | (fulfilled r, fulfilled _) =>
      match data r with Some _ => true | None => false end
  | _ => true
  end.

(** A training status that carries no progress. *)
Definition stalled_status : StatusSnapshot :=
  {| tag := "training"; message := "Starting"; progress_percentage := undefined |}.

(** The payload of the specification's end-to-end example: scores and a
    privacy budget, and no [improvement] object. *)
Definition example_payload : Payload.t :=
  {| Payload.federated_model := Some {| auc := num (JS.of_decimal 95 (-2));
                                        recall := num (JS.of_decimal 88 (-2)) |};
     Payload.improvement := None;
     Payload.privacy_metrics :=
       Some {| epsilon := num (JS.of_decimal 12 (-1)); delta := undefined;
               noise_multiplier := undefined; l2_norm_clip := undefined |};
     Payload.communication_cost_mb := undefined;
     Payload.privacy_attacks := None |}.


(** The state with another value in the error cell. *)
Definition with_error (e : option string) (s : ViewState) : ViewState :=
  snd (setError e s).

(** Handles are handed out in increasing order: every timer of the table
    has a handle below the next one. *)
Definition well_formed (h : host) : Prop :=
  Forall (fun t => (handle t < next_handle h)%nat) (timers h).

(** [x] is a finite number with [0 < x < p / q]. *)
Definition positive_below (x : JS.number) (p q : Z) : Prop :=
  match x with
  | S754_finite false m e =>
      q * fst (JS.magnitude m e) < p * snd (JS.magnitude m e)
  | _ => False
  end.

(** The double written [0.04]. *)
Definition four_hundredths : JS.number := Eval vm_compute in JS.of_decimal 4 (-2).

(** Attack results in which only the overall rate is present. *)
Definition overall_only : PrivacyAttacks :=
  {| overall_defense_rate := num (JS.of_decimal 9 (-1));
     membership_inference := None;
     model_inversion := None |}.

(** * Properties *)

(** ** The fetch cycle *)

Lemma cycle_loading (o : outcome) s : loading (cycle o s) = false.
Proof. destruct o as [[r | e] [r' | [| | e']]]; reflexivity. Qed.

Lemma cycles_snoc (os : list outcome) o s :
  cycles (os ++ [o]) s = cycle o (cycles os s).
Proof. unfold cycles. rewrite fold_left_app. reflexivity. Qed.

(** C1: the loading flag starts true; after any sequence of completed fetch
    cycles it is true exactly when the sequence is empty, whatever the
    outcome of each cycle; and a cycle leaves it false from whatever state
    it starts, so nothing sets it back to true. *)
Theorem loading_until_first_cycle :
  loading initial = true /\
  (forall os : list outcome,
      loading (cycles os initial) = match os with [] => true | _ :: _ => false end) /\
  (forall (o : outcome) s, loading (cycle o s) = false).
Proof.
  split; [reflexivity | split].
  - intros os. destruct os as [| o os] using rev_ind; [reflexivity |].
    rewrite cycles_snoc, cycle_loading.
    destruct os; reflexivity.
  - apply cycle_loading.
Qed.



(** C3: when the metrics request fails and the status request succeeds,
    the cycle completes normally, clears the error field, leaves the
    stored metrics unchanged and stores the new status. *)
Theorem metrics_failure_is_tolerated :
  forall (e : reason) (r : Response StatusSnapshot) (s : ViewState),
    fetchData (rejected e) (fulfilled r) s =
      (Normal tt, {| metrics := metrics s; status := data r;
                     loading := false; error := None |}).
Proof. intros e r s; reflexivity. Qed.

(** ** The poller *)

Lemma advance_snoc n h : advance (S n) h = tick (advance n h).
Proof.
  revert h. induction n as [| n IH]; intros h; [reflexivity |].
  change (advance (S (S n)) h) with (advance (S n) (tick h)).
  rewrite IH. reflexivity.
Qed.

Lemma schedule_snoc t0 c :
  schedule t0 (S c) = (schedule t0 c ++ [t0 + 5000 * Z.of_nat c])%list.
Proof. unfold schedule. rewrite seq_S, map_app. reflexivity. Qed.

(** One more millisecond either completes a period of 5000 or does not. *)
Lemma div_5000_step (n : nat) :
  (S n / 5000 = S (n / 5000) /\ S n = 5000 * S (n / 5000))%nat \/
  (S n / 5000 = n / 5000 /\ S n < 5000 * S (n / 5000))%nat.
Proof.
  pose proof (Nat.div_mod_eq n 5000) as Hn.
  pose proof (Nat.mod_upper_bound n 5000 ltac:(lia)) as Hr.
  destruct (Nat.eq_dec (n mod 5000) 4999) as [E | E].
  - left.
    assert (Hq : (S n / 5000 = S (n / 5000))%nat).
    { symmetry. apply (Nat.div_unique _ _ _ 0%nat); lia. }
    split; lia.
  - right.
    assert (Hq : (S n / 5000 = n / 5000)%nat).
    { symmetry. apply (Nat.div_unique _ _ _ (S (n mod 5000))); lia. }
    split; lia.
Qed.

Lemma tick_mounted t0 n : tick (mounted_host t0 n) = mounted_host t0 (S n).
Proof.
  unfold tick, fire, mounted_host, reschedule;
    cbn [clock timers next_handle started filter map due delay handle action].
  destruct (div_5000_step n) as [(Hq & Hn) | (Hq & Hn)]; rewrite Hq.
  - replace (t0 + 5000 * (Z.of_nat (n / 5000) + 1) =? t0 + Z.of_nat n + 1) with true
      by (symmetry; apply Z.eqb_eq; lia).
    cbn [fold_left invoke action clock timers next_handle started].
    rewrite (schedule_snoc t0 (S (n / 5000))).
    f_equal; [lia | | f_equal; f_equal; lia].
    f_equal. f_equal. lia.
  - replace (t0 + 5000 * (Z.of_nat (n / 5000) + 1) =? t0 + Z.of_nat n + 1) with false
      by (symmetry; apply Z.eqb_neq; lia).
    cbn [fold_left]. f_equal. lia.
Qed.

Lemma advance_mounted t0 n : advance n (fst (mount (boot t0))) = mounted_host t0 n.
Proof.
  induction n as [| n IH].
  - cbn. unfold mounted_host. cbn. f_equal; [lia |].
    f_equal. f_equal. lia.
  - rewrite advance_snoc, IH. apply tick_mounted.
Qed.

(** With no timer in the table, time passes and nothing is started. *)
Lemma advance_idle k c nh log :
  advance k {| clock := c; timers := []; next_handle := nh; started := log |} =
  {| clock := c + Z.of_nat k; timers := []; next_handle := nh; started := log |}.
Proof.
  revert c. induction k as [| k IH]; intros c.
  - cbn. f_equal. lia.
  - cbn [advance]. unfold tick, fire. cbn [clock timers next_handle started filter map fold_left].
    rewrite IH. f_equal. lia.
Qed.

(** C4: mounting starts one fetch cycle at once; while the component is
    displayed a cycle starts every 5000 ms after that, so [n] ms after
    mounting the cycles started are those at [t0], [t0 + 5000], ..., one for
    each multiple of 5000 up to [n]; unmounting removes the timer, and
    however long the page lives on no further cycle is started. *)
Theorem poller_schedule :
  forall (t0 : Z) (n k : nat),
    started (fst (mount (boot t0))) = [t0] /\
    started (advance n (fst (mount (boot t0)))) = schedule t0 (S (n / 5000)) /\
    timers (lifetime t0 n k) = [] /\
    started (lifetime t0 n k) = schedule t0 (S (n / 5000)).
Proof.
  intros t0 n k.
  split; [reflexivity | split].
  - rewrite advance_mounted. reflexivity.
  - unfold lifetime.
    change (mount (boot t0)) with (fst (mount (boot t0)), clearInterval 1).
    unfold unmount. rewrite advance_mounted.
    unfold clearInterval, mounted_host;
      cbn [clock timers next_handle started filter handle Nat.eqb negb].
    rewrite advance_idle. split; reflexivity.
Qed.

(** ** Number formatting *)

Lemma truthy_cons a s : truthy (String a s) = true.
Proof. reflexivity. Qed.

Lemma truthy_app_l a b : truthy a = true -> truthy (a ++ b) = true.
Proof. destruct a; [discriminate | reflexivity]. Qed.

Lemma truthy_app_r a b : truthy b = true -> truthy (a ++ b) = true.
Proof. destruct a; [trivial | reflexivity]. Qed.

Lemma digits_truthy n : truthy (JS.digits n) = true.
Proof.
  unfold JS.digits. generalize (N.to_uint (Z.to_N n)).
  intros d; destruct d; reflexivity.
Qed.

Lemma fixed_point_truthy n f : truthy (JS.fixed_point n f) = true.
Proof.
  unfold JS.fixed_point. destruct f as [| f].
  - apply digits_truthy.
  - apply truthy_app_r. reflexivity.
Qed.

Lemma format_shortest_truthy s k n : truthy (JS.format_shortest s k n) = true.
Proof.
  unfold JS.format_shortest.
  destruct ((-5 <=? n) && (n <=? 21)).
  - destruct (k <=? n).
    + apply truthy_app_l, digits_truthy.
    + destruct (0 <? n); [apply truthy_app_r |]; reflexivity.
  - apply truthy_app_r. reflexivity.
Qed.

Lemma Number_toString_truthy x : truthy (JS.Number_toString x) = true.
Proof.
  destruct x as [s | s | | s m e]; cbn [JS.Number_toString]; try reflexivity.
  - destruct s; reflexivity.
  - destruct (JS.shortest m e) as [[d k] n].
    apply truthy_app_r, format_shortest_truthy.
Qed.

(** [toFixed] never returns the empty string, so [x.toFixed(f) || d] is
    [x.toFixed(f)]. *)
Lemma toFixed_truthy f x : truthy (JS.toFixed f x) = true.
Proof.
  destruct x as [s | s | | s m e]; cbn [JS.toFixed].
  - apply fixed_point_truthy.
  - apply Number_toString_truthy.
  - reflexivity.
  - destruct (JS.ratio_geb _ _).
    + apply Number_toString_truthy.
    + apply truthy_app_r, fixed_point_truthy.
Qed.

Lemma toExponential_truthy f x : truthy (JS.toExponential f x) = true.
Proof.
  destruct x as [s | s | | s m e]; cbn [JS.toExponential].
  - reflexivity.
  - apply Number_toString_truthy.
  - reflexivity.
  - apply truthy_app_r.
    destruct (_ =? _); unfold JS.exponential; apply truthy_app_r; reflexivity.
Qed.

Lemma or_else_toFixed f v d : or_else (opt_toFixed f v) d = shown f v d.
Proof.
  destruct v as [| | x]; try reflexivity.
  cbn. rewrite toFixed_truthy. reflexivity.
Qed.

Lemma magnitude_pos m e : 0 < fst (JS.magnitude m e) /\ 0 < snd (JS.magnitude m e).
Proof.
  unfold JS.magnitude. destruct (0 <=? e) eqn:E; cbn [fst snd].
  - apply Z.leb_le in E. split; [| lia].
    apply Z.mul_pos_pos; [lia | apply Z.pow_pos_nonneg; lia].
  - apply Z.leb_gt in E. split; [lia | apply Z.pow_pos_nonneg; lia].
Qed.

Lemma round_half_up_nearest r : 0 < snd r -> nearest r (JS.round_half_up r).
Proof.
  intros Hb. unfold nearest, JS.round_half_up.
  pose proof (Z.div_mod (2 * fst r + snd r) (2 * snd r) ltac:(lia)) as Hd.
  pose proof (Z.mod_pos_bound (2 * fst r + snd r) (2 * snd r) ltac:(lia)) as Hm.
  nia.
Qed.

(** Below 10^21 in magnitude, [toFixed] prints the sign and the integer
    nearest to [|x| * 10^f] with the point before its last [f] digits. *)
Lemma toFixed_nearest f s m e :
  JS.ratio_geb (JS.magnitude m e) (10 ^ 21) = false ->
  exists n, nearest (JS.scale10 (JS.magnitude m e) (- Z.of_nat f)) n /\
            JS.toFixed f (S754_finite s m e) = JS.sign_string s ++ JS.fixed_point n f.
Proof.
  intros Hr. cbn [JS.toFixed]. rewrite Hr.
  eexists; split; [| reflexivity].
  apply round_half_up_nearest.
  unfold JS.scale10; cbn [snd].
  destruct (magnitude_pos m e) as [_ Hb].
  apply Z.mul_pos_pos; [exact Hb | apply Z.pow_pos_nonneg; lia].
Qed.

(** Sample conversions, with the results the language prescribes. *)
Example toFixed_samples :
  JS.toFixed 2 (JS.of_decimal 1005 (-3)) = "1.00" /\
  JS.toFixed 2 (JS.of_decimal 8345 (-3)) = "8.35" /\
  JS.toFixed 0 (JS.of_decimal 25 (-1)) = "3" /\
  JS.toFixed 0 (SFopp (JS.of_decimal 25 (-1))) = "-3" /\
  JS.toFixed 2 (SFopp (JS.of_decimal 1 (-3))) = "-0.00" /\
  JS.toFixed 2 (S754_zero true) = "0.00" /\
  JS.toFixed 2 (JS.of_decimal 123456789 (-2)) = "1234567.89" /\
  JS.toFixed 2 (JS.of_decimal 1 21) = "1e+21" /\
  JS.toFixed 1 JS.NaN = "NaN" /\
  JS.toFixed 0 forty_two_point_three = "42".
Proof. vm_compute. repeat split. Qed.

Example toExponential_samples :
  JS.toExponential 2 (JS.of_decimal 1 (-5)) = "1.00e-5" /\
  JS.toExponential 2 (JS.of_decimal 123456 0) = "1.23e+5" /\
  JS.toExponential 2 (JS.of_decimal 9999 (-3)) = "1.00e+1" /\
  JS.toExponential 2 (S754_zero false) = "0.00e+0" /\
  JS.toExponential 2 (JS.of_decimal 5 (-324)) = "4.94e-324".
Proof. vm_compute. repeat split. Qed.

Example Number_toString_samples :
  JS.Number_toString (JS.of_decimal 1 (-1)) = "0.1" /\
  JS.Number_toString (SFadd JS.prec JS.emax (JS.of_decimal 1 (-1)) (JS.of_decimal 2 (-1)))
    = "0.30000000000000004" /\
  JS.Number_toString (JS.of_decimal 1 (-7)) = "1e-7" /\
  JS.Number_toString (JS.of_decimal 123456789012345678901 0) = "123456789012345680000" /\
  JS.Number_toString (JS.of_Z (2 ^ 70)) = "1.1805916207174113e+21" /\
  JS.Number_toString (JS.of_decimal 1 23) = "1e+23" /\
  JS.Number_toString (JS.of_Z 0) = "0".
Proof. vm_compute. repeat split. Qed.

(** ** Rendering *)

(** What the page holds once loading is over. *)
Lemma Dashboard_page s banner tf content :
  Dashboard s = Normal (Page banner tf content) ->
  loading s = false /\
  tf = render_train_first s /\
  render_metrics (metrics s) = Normal content /\
  match status s with
  | Some st => exists a, banner = Some a /\ render_status st = Normal a
  | None => banner = None
  end.
Proof.
  unfold Dashboard. destruct (loading s); [discriminate |].
  destruct (status s) as [st |].
  - destruct (render_status st) as [a | e]; [| discriminate].
    destruct (render_metrics (metrics s)) as [c | e]; [| discriminate].
    intros H; injection H as <- <- <-. repeat split; eauto.
  - destruct (render_metrics (metrics s)) as [c | e]; [| discriminate].
    intros H; injection H as <- <- <-. repeat split.
Qed.

(** The page is rendered whenever a stored [training] status carries a
    numeric progress and the stored metrics lack none of their objects. *)
Lemma Dashboard_renders s :
  loading s = false ->
  (forall st, status s = Some st -> tag st = "training" ->
              exists p, progress_percentage st = num p) ->
  (forall d, metrics s = Some d -> exists m, d = complete m) ->
  exists banner content, Dashboard s = Normal (Page banner (render_train_first s) content).
Proof.
  intros Hl Hp Hd. unfold Dashboard. rewrite Hl.
  assert (Hm : exists c, render_metrics (metrics s) = Normal c).
  { destruct (metrics s) as [d |]; [| cbn; eauto].
    destruct (Hd d eq_refl) as [[fm imp pm c a] ->]. cbn. eauto. }
  destruct Hm as [c ->].
  destruct (status s) as [st |]; [| eauto].
  unfold render_status, status_text.
  destruct (tag st =? "training")%string eqn:E; [| eauto].
  apply String.eqb_eq in E. destruct (Hp st eq_refl E) as [p ->]. cbn. eauto.
Qed.

(** A complete payload is read back as the snapshot it came from. *)
Lemma shape_complete m : shape (complete m) = Normal m.
Proof. destruct m; reflexivity. Qed.

(** C5: on a rendered page, the severity of the status banner follows the
    tag of the stored status: [completed] gives success, [training] info,
    [error] error, and any other tag warning. *)
Theorem banner_severity :
  forall s st banner tf content,
    status s = Some st ->
    Dashboard s = Normal (Page banner tf content) ->
    exists a, banner = Some a /\
      (tag st = "completed" -> severity a = Severity.success) /\
      (tag st = "training" -> severity a = Severity.info) /\
      (tag st = "error" -> severity a = Severity.error) /\
      (tag st <> "completed" -> tag st <> "training" -> tag st <> "error" ->
       severity a = Severity.warning).
Proof.
  intros s st banner tf content Hst H.
  apply Dashboard_page in H. destruct H as (_ & _ & _ & H).
  rewrite Hst in H. destruct H as (a & -> & Ha).
  exists a. split; [reflexivity |].
  unfold render_status in Ha. destruct (status_text st); [| discriminate].
  injection Ha as <-. cbn [severity]. unfold severity_of.
  repeat split.
  - intros ->. reflexivity.
  - intros ->. reflexivity.
  - intros ->. reflexivity.
  - intros H1 H2 H3.
    apply String.eqb_neq in H1, H2, H3. rewrite H1, H2, H3. reflexivity.
Qed.

Lemma banner_severity_witness :
  status (after_status done_status) = Some done_status /\
  Dashboard (after_status done_status) =
    Normal (Page (Some {| severity := Severity.success; text := "Done " |}) None None) /\
  exists a, Some {| severity := Severity.success; text := "Done " |} = Some a /\
    (tag done_status = "completed" -> severity a = Severity.success) /\
    (tag done_status = "training" -> severity a = Severity.info) /\
    (tag done_status = "error" -> severity a = Severity.error) /\
    (tag done_status <> "completed" -> tag done_status <> "training" ->
     tag done_status <> "error" -> severity a = Severity.warning).
Proof.
  split; [reflexivity | split; [reflexivity |]].
  apply (banner_severity (after_status done_status) done_status _ None None);
    reflexivity.
Defined.

(** C7: on a rendered page, the text of the status banner is the message,
    a space, and, exactly when the tag is [training], the progress with no
    fraction digits between parentheses and before a percent sign; the
    double 42.3 is printed as 42, so a training status with that progress
    gives a text ending in (42%). *)
Theorem progress_suffix :
  forall s st banner tf content,
    status s = Some st ->
    Dashboard s = Normal (Page banner tf content) ->
    exists a, banner = Some a /\
      ((tag st = "training" /\
        exists p, progress_percentage st = num p /\
                  text a = message st ++ " " ++ "(" ++ JS.toFixed 0 p ++ "%)") \/
       (tag st <> "training" /\ text a = message st ++ " ")) /\
      (progress_percentage st = num forty_two_point_three ->
       tag st = "training" -> text a = message st ++ " (42%)").
Proof.
  intros s st banner tf content Hst H.
  apply Dashboard_page in H. destruct H as (_ & _ & _ & H).
  rewrite Hst in H. destruct H as (a & -> & Ha).
  exists a. split; [reflexivity |].
  unfold render_status, status_text in Ha.
  destruct (tag st =? "training")%string eqn:E.
  - apply String.eqb_eq in E.
    destruct (progress_percentage st) as [[| | p] |] eqn:Ep; try discriminate.
    cbn [call_toFixed] in Ha. injection Ha as <-. cbn [text].
    split.
    + left. split; [exact E |]. exists p. split; reflexivity.
    + intros Hp _. injection Hp as ->. reflexivity.
  - apply String.eqb_neq in E. injection Ha as <-. cbn [text].
    split.
    + right. split; [exact E | reflexivity].
    + intros _ Ht. contradiction.
Qed.

Lemma progress_suffix_witness :
  status (after_status training_status) = Some training_status /\
  Dashboard (after_status training_status) =
    Normal (Page (Some {| severity := Severity.info; text := "Round 3 of 10 (42%)" |})
                 None None) /\
  exists a, Some {| severity := Severity.info; text := "Round 3 of 10 (42%)" |} = Some a /\
    ((tag training_status = "training" /\
      exists p, progress_percentage training_status = num p /\
                text a = message training_status ++ " " ++ "(" ++ JS.toFixed 0 p ++ "%)") \/
     (tag training_status <> "training" /\ text a = message training_status ++ " ")) /\
    (progress_percentage training_status = num forty_two_point_three ->
     tag training_status = "training" -> text a = message training_status ++ " (42%)").
Proof.
  split; [reflexivity | split; [vm_compute; reflexivity |]].
  apply (progress_suffix (after_status training_status) training_status _ None None);
    [reflexivity | vm_compute; reflexivity].
Defined.

(** C8, as amended: on a rendered page (so after loading is over) the
    train-the-model-first warning is present exactly when the stored
    metrics are null and the error field holds a non-empty message; an
    error field holding the empty string counts as no error. *)
Theorem train_first_banner :
  forall s banner tf content,
    Dashboard s = Normal (Page banner tf content) ->
    loading s = false /\
    (tf = Some train_first_alert \/ tf = None) /\
    (tf = Some train_first_alert <->
     metrics s = None /\ exists e, error s = Some e /\ e <> "").
Proof.
  intros s banner tf content H.
  apply Dashboard_page in H. destruct H as (Hl & -> & _ & _).
  split; [exact Hl |].
  unfold render_train_first.
  destruct (error s) as [e |]; [destruct (truthy e) eqn:E; [destruct (metrics s) |] |].
  - split; [right; reflexivity |]. split; [discriminate | intros [? _]; discriminate].
  - split; [left; reflexivity |]. split; [| reflexivity].
    intros _. split; [reflexivity |]. exists e. split; [reflexivity |].
    intros ->. discriminate.
  - split; [right; reflexivity |]. split; [discriminate |].
    intros (_ & e' & He & Hne). injection He as <-.
    destruct e; [contradiction | discriminate].
  - split; [right; reflexivity |]. split; [discriminate |].
    intros (_ & e' & He & _). discriminate.
Qed.

Lemma train_first_banner_witness :
  Dashboard after_failure = Normal (Page None (Some train_first_alert) None) /\
  loading after_failure = false /\
  (Some train_first_alert = Some train_first_alert \/ Some train_first_alert = None) /\
  (Some train_first_alert = Some train_first_alert <->
   metrics after_failure = None /\ exists e, error after_failure = Some e /\ e <> "").
Proof.
  split; [reflexivity |].
  apply (train_first_banner after_failure None (Some train_first_alert) None).
  reflexivity.
Defined.

(** C8, as stated, fails after a status failure whose message is empty:
    the metrics are null and the error field is not null, yet the page
    carries no warning. *)
Lemma train_first_needs_message :
  loading after_silent_failure = false /\
  metrics after_silent_failure = None /\
  error after_silent_failure = Some "" /\
  Dashboard after_silent_failure = Normal (Page None None None) /\
  ~ train_first_iff_error_non_null after_silent_failure.
Proof.
  repeat split.
  intros H. specialize (H None None None eq_refl).
  destruct H as [_ H]. apply H; [| reflexivity].
  split; [reflexivity | discriminate].
Qed.

(** The chips and the attack rows of the panel, and the cards beside it,
    are the ones named above. *)
Lemma render_content_parts m :
  render_content m =
    ([auc_card m; recall_card m; budget_card m; cost_card m],
     {| chips := [epsilon_chip (privacy_metrics m); delta_chip (privacy_metrics m);
                  noise_chip (privacy_metrics m); clip_chip (privacy_metrics m)];
        defense := option_map
                     (fun a => (percent (overall_defense_rate a),
                                percent (membership_rate a),
                                percent (inversion_score a)))
                     (privacy_attacks m) |}).
Proof. unfold render_content, PrivacyMetrics. destruct (privacy_attacks m); reflexivity. Qed.

(** C6, as amended: the AUC and recall cards show four fraction digits,
    the privacy-budget card and the epsilon and noise chips two, the clip
    chip one, and each shows N/A when its field is absent; the delta chip
    shows exponential notation with two fraction digits, or N/A; the
    communication-cost card shows two fraction digits and the unit, and
    0 MB when the cost is absent; each attack-defense percentage whose
    fraction is a number shows the double product of the fraction and 100
    with one fraction digit and a percent sign. *)
Theorem numeric_fields_display :
  forall m : MetricsSnapshot,
    let p := privacy_metrics m in
    value (auc_card m) = shown 4 (auc (federated_model m)) "N/A" /\
    value (recall_card m) = shown 4 (recall (federated_model m)) "N/A" /\
    value (budget_card m) = shown 2 (epsilon p) "N/A" /\
    value (cost_card m) = shown 2 (communication_cost_mb m) "0" ++ " MB" /\
    epsilon_chip p = "ε = " ++ shown 2 (epsilon p) "N/A" /\
    delta_chip p = "δ = " ++ match delta p with
                              | num x => JS.toExponential 2 x
                              | _ => "N/A"
                              end /\
    noise_chip p = "Noise: " ++ shown 2 (noise_multiplier p) "N/A" /\
    clip_chip p = "Clip: " ++ shown 1 (l2_norm_clip p) "N/A" /\
    (forall x, percent (num x) = JS.toFixed 1 (JS.mul x (JS.of_Z 100)) ++ "%") /\
    render_content m =
      ([auc_card m; recall_card m; budget_card m; cost_card m],
       {| chips := [epsilon_chip p; delta_chip p; noise_chip p; clip_chip p];
          defense := option_map
                       (fun a => (percent (overall_defense_rate a),
                                  percent (membership_rate a),
                                  percent (inversion_score a)))
                       (privacy_attacks m) |}).
Proof.
  intros m p.
  repeat match goal with |- _ /\ _ => split end;
    try (unfold auc_card, recall_card, budget_card, cost_card, MetricCard,
           epsilon_chip, noise_chip, clip_chip; cbn [value];
         rewrite or_else_toFixed; reflexivity).
  - unfold delta_chip. destruct (delta p) as [| | x]; try reflexivity.
    cbn. rewrite toExponential_truthy. reflexivity.
  - intros x. reflexivity.
  - apply render_content_parts.
Qed.

(** C6, as stated, fails on the communication-cost card: with the cost
    absent the card shows 0 MB, not N/A. *)
Lemma absent_cost_shows_zero :
  In (cost_card sparse_metrics) (fst (render_content sparse_metrics)) /\
  communication_cost_mb sparse_metrics = undefined /\
  value (cost_card sparse_metrics) = "0 MB" /\
  ~ absent_cost_shows_NA sparse_metrics.
Proof.
  split; [cbn; tauto |]. split; [reflexivity |]. split; [reflexivity |].
  intros H. specialize (H (or_introl eq_refl)). discriminate H.
Qed.

(** An attack-defense fraction that is missing is printed as NaN. *)
Example missing_rate_prints_NaN : percent undefined = "NaN%".
Proof. reflexivity. Qed.

(** 0.575 * 100 is the double just below 57.5, which one fraction digit
    rounds to 57.5; 0.95 is shown as 0.9500. *)
Example percent_sample :
  percent (num (JS.of_decimal 575 (-3))) = "57.5%" /\
  value (auc_card sparse_metrics) = "0.9500" /\
  value (recall_card sparse_metrics) = "0.8800".
Proof. vm_compute. repeat split. Qed.

(** C9: when the epsilon field of the privacy metrics is absent, the
    privacy-budget card shows N/A and the epsilon chip reads N/A after its
    label; both are part of the rendered content. *)
Theorem epsilon_absent_shows_NA :
  forall m : MetricsSnapshot,
    absent (epsilon (privacy_metrics m)) ->
    value (budget_card m) = "N/A" /\
    epsilon_chip (privacy_metrics m) = "ε = " ++ "N/A" /\
    In (budget_card m) (fst (render_content m)) /\
    In (epsilon_chip (privacy_metrics m)) (chips (snd (render_content m))).
Proof.
  intros m Habs.
  unfold budget_card, epsilon_chip, MetricCard; cbn [value].
  repeat split.
  - destruct Habs as [-> | ->]; reflexivity.
  - destruct Habs as [-> | ->]; reflexivity.
  - cbn. tauto.
  - cbn. tauto.
Qed.

Lemma epsilon_absent_shows_NA_witness :
  absent (epsilon (privacy_metrics sparse_metrics)) /\
  value (budget_card sparse_metrics) = "N/A" /\
  epsilon_chip (privacy_metrics sparse_metrics) = "ε = " ++ "N/A" /\
  In (budget_card sparse_metrics) (fst (render_content sparse_metrics)) /\
  In (epsilon_chip (privacy_metrics sparse_metrics))
     (chips (snd (render_content sparse_metrics))).
Proof.
  split; [left; reflexivity |].
  apply (epsilon_absent_shows_NA sparse_metrics). left; reflexivity.
Defined.

(** C10: a metric card carries an improvement chip exactly when the
    improvement is a number strictly greater than zero; the label is then a
    plus sign, the number with one fraction digit, and a percent sign.
    Greater than zero means: a finite number with a positive sign, or
    positive infinity; zeros, negative numbers and NaN give no chip, and
    neither do [null] and a missing improvement. *)
Theorem improvement_chip_rule :
  forall (t v : string) (imp : field) (sub : option string),
    chip (MetricCard t v imp sub) =
      match imp with
      | num x =>
          if JS.gtb x (JS.of_Z 0)
          then Some ("+" ++ JS.toFixed 1 x ++ "%")
          else None
      | _ => None
      end /\
    (forall s m e, JS.gtb (S754_finite s m e) (JS.of_Z 0) = negb s) /\
    (forall s, JS.gtb (S754_zero s) (JS.of_Z 0) = false) /\
    (forall s, JS.gtb (S754_infinity s) (JS.of_Z 0) = negb s) /\
    JS.gtb JS.NaN (JS.of_Z 0) = false.
Proof.
  intros t v imp sub. split; [| repeat split; intros []; reflexivity].
  unfold MetricCard; cbn [chip]. unfold improvement_chip.
  destruct imp as [| | x]; try reflexivity.
  cbn [ToNumber andb]. destruct (JS.gtb x (JS.of_Z 0)); reflexivity.
Qed.

(** An improvement of 5.2 is labelled +5.2%. *)
Example improvement_sample :
  chip (auc_card sparse_metrics) = Some "+5.2%" /\
  chip (recall_card sparse_metrics) = None /\
  chip (budget_card sparse_metrics) = None.
Proof. vm_compute. repeat split. Qed.

(** After a first cycle that brought both snapshots the page shows the
    success banner, no warning, and the cards and the panel. *)
Example first_cycle_page :
  Dashboard initial = Normal Spinner /\
  Dashboard after_metrics =
    Normal (Page (Some {| severity := Severity.success; text := "Done " |})
                 None
                 (Some (render_content sparse_metrics))).
Proof. split; reflexivity. Qed.

(** * Further properties of the component *)

(** ** The fetch cycle over time *)

Lemma cycles_cons (o : outcome) os s : cycles (o :: os) s = cycles os (cycle o s).
Proof. reflexivity. Qed.

(** A cycle whose status request failed touches only the loading cell
    and, unless the request was rejected with [undefined] or [null], the
    error cell. *)
Lemma cycle_status_failed (o : outcome) s :
  status_fulfilled o = false ->
  cycle o s = {| metrics := metrics s; status := status s; loading := false;
                 error := if rejected_without_reason o then error s
                          else reported_error o |}.
Proof.
  destruct o as [[rm | em] [rs | [| | es]]]; try discriminate; intros _; reflexivity.
Qed.

(** X1: an exception leaves [fetchData] exactly when the status request
    is rejected with [undefined] or [null], which makes the catch block
    itself throw; every other failure of either request is swallowed and
    the cycle completes normally. *)
Theorem failure_escapes_iff :
  forall (m : settled (Response Payload.t)) (st : settled (Response StatusSnapshot))
         (s : ViewState),
    fst (fetchData m st s) = Normal tt <-> rejected_without_reason (m, st) = false.
Proof.
  intros [rm | em] [rs | [| | es]] s; cbn; split; intros H;
    try reflexivity; discriminate H.
Qed.

(** X2: a cycle in which both requests are fulfilled replaces all four
    cells, so the state after it does not depend on the state before. *)
Theorem success_overwrites :
  forall (rm : Response Payload.t) (rs : Response StatusSnapshot) (s s' : ViewState),
    cycle (fulfilled rm, fulfilled rs) s = cycle (fulfilled rm, fulfilled rs) s' /\
    cycle (fulfilled rm, fulfilled rs) s =
      {| metrics := data rm; status := data rs;
         loading := false; error := None |}.
Proof. intros rm rs s s'. split; reflexivity. Qed.

(** X3: polling the same answers again changes nothing: a cycle repeated
    with the same outcome leaves the state as the first one left it. *)
Theorem cycle_idempotent :
  forall (o : outcome) (s : ViewState), cycle o (cycle o s) = cycle o s.
Proof. intros [[rm | em] [rs | [| | es]]] s; reflexivity. Qed.

(** X4: after any sequence of cycles the stored metrics are those of the
    latest cycle in which both requests were fulfilled, and the metrics of
    before when there was none; metrics fetched in a cycle whose status
    request failed are dropped. *)
Theorem stored_metrics_latest :
  forall (os : list outcome) (s : ViewState),
    metrics (cycles os s) =
      match find both_fulfilled (rev os) with
      | Some o => fetched_metrics o
      | None => metrics s
      end.
Proof.
  intros os s. induction os as [| o os IH] using rev_ind; [reflexivity |].
  rewrite cycles_snoc, rev_unit. cbn [find].
  destruct o as [[rm | em] [rs | [| | es]]]; cbn [both_fulfilled];
    try exact IH; reflexivity.
Qed.

(** X5: after any sequence of cycles the stored status is that of the
    latest cycle whose status request was fulfilled (the one of before
    when there was none), and the error cell is what the latest cycle
    that wrote to it reported: null after a fulfilled status request, the
    message after one rejected with an exception object; a cycle whose
    status request was rejected with [undefined] or [null] leaves the
    error cell as it found it. *)
Theorem stored_status_latest :
  forall (os : list outcome) (s : ViewState),
    status (cycles os s) =
      match find status_fulfilled (rev os) with
      | Some o => fetched_status o
      | None => status s
      end /\
    error (cycles os s) =
      match find (fun o => negb (rejected_without_reason o)) (rev os) with
      | Some o => reported_error o
      | None => error s
      end.
Proof.
  intros os s. induction os as [| o os [IHs IHe]] using rev_ind; [split; reflexivity |].
  rewrite cycles_snoc, rev_unit. cbn [find].
  destruct o as [[rm | em] [rs | [| | es]]]; split;
    try exact IHs; try exact IHe; reflexivity.
Qed.

(** ** The page over time *)

(** Once loading is over the component never returns the spinner. *)
Lemma Dashboard_loaded s : loading s = false -> Dashboard s <> Normal Spinner.
Proof.
  intros Hl. unfold Dashboard. rewrite Hl.
  destruct (status s) as [st |]; [destruct (render_status st) |];
    try destruct (render_metrics (metrics s)); discriminate.
Qed.

(** With metrics stored, the page does not depend on the error cell. *)
Lemma Dashboard_ignores_error s e m :
  metrics s = Some m -> Dashboard (with_error e s) = Dashboard s.
Proof.
  intros Hm. unfold Dashboard, with_error, render_train_first, setError;
    cbn [snd metrics status loading error].
  rewrite Hm.
  destruct (loading s); [reflexivity |].
  destruct e as [e |], (error s) as [e' |];
    repeat match goal with |- context [truthy ?x] => destruct (truthy x) end;
    reflexivity.
Qed.

(** X6: the page is the spinner exactly until the first cycle has
    completed: after a sequence of cycles from the initial state the
    component returns the spinner if and only if the sequence is empty. *)
Theorem spinner_until_first_cycle :
  forall os : list outcome,
    Dashboard (cycles os initial) = Normal Spinner <-> os = [].
Proof.
  intros os. split.
  - destruct os as [| o os] using rev_ind; [reflexivity |].
    rewrite cycles_snoc. intros H.
    exfalso. revert H. apply Dashboard_loaded, cycle_loading.
  - intros ->. reflexivity.
Qed.

(** X7: once loading is over, rendering throws a TypeError, and the whole
    page is lost, whenever the stored status has the tag [training] and a
    progress that is not a number, or the stored metrics lack one of
    [federated_model], [improvement] and [privacy_metrics]. *)
Theorem render_throws_when :
  forall s : ViewState,
    loading s = false ->
    (exists st, status s = Some st /\ tag st = "training" /\
                forall p, progress_percentage st <> num p) \/
    (exists d, metrics s = Some d /\
               (Payload.federated_model d = None \/ Payload.improvement d = None \/
                Payload.privacy_metrics d = None)) ->
    exists e, Dashboard s = Thrown e.
Proof.
  intros s Hl H. unfold Dashboard. rewrite Hl.
  destruct H as [(st & Hst & Ht & Hp) | (d & Hd & Hmiss)].
  - rewrite Hst. unfold render_status, status_text.
    apply String.eqb_eq in Ht. rewrite Ht.
    destruct (progress_percentage st) as [[| | p] |]; cbn [call_toFixed]; eauto.
    exfalso. apply (Hp p). reflexivity.
  - assert (Hm : exists e, render_metrics (metrics s) = Thrown e).
    { rewrite Hd. unfold render_metrics, shape.
      destruct (Payload.federated_model d); [| eauto].
      destruct (Payload.improvement d); [| eauto].
      destruct (Payload.privacy_metrics d); [| eauto].
      destruct Hmiss as [H | [H | H]]; discriminate H. }
    destruct Hm as [e ->].
    destruct (status s) as [st |]; [destruct (render_status st) |]; eauto.
Qed.

Lemma render_throws_when_witness :
  loading (after_status stalled_status) = false /\
  ((exists st, status (after_status stalled_status) = Some st /\ tag st = "training" /\
               forall p, progress_percentage st <> num p) \/
   (exists d, metrics (after_status stalled_status) = Some d /\
              (Payload.federated_model d = None \/ Payload.improvement d = None \/
               Payload.privacy_metrics d = None))) /\
  exists e, Dashboard (after_status stalled_status) = Thrown e.
Proof.
  assert (H : exists st, status (after_status stalled_status) = Some st /\
                         tag st = "training" /\
                         forall p, progress_percentage st <> num p).
  { exists stalled_status. split; [reflexivity | split; [reflexivity |]].
    intros p. discriminate. }
  split; [reflexivity | split; [left; exact H |]].
  apply (render_throws_when (after_status stalled_status)); [reflexivity | left; exact H].
Defined.

(** The end-to-end example of the specification, as it is written there,
    does not render: its metrics have no [improvement] object. *)
Example example_payload_throws :
  Dashboard (cycle (fulfilled (respond example_payload), fulfilled (respond done_status))
                   initial) =
    Thrown {| err_message := "Cannot read properties of undefined (reading 'auc')" |}.
Proof. reflexivity. Qed.

(** X8: when the status request of the very first cycle fails with a
    non-empty message, the page holds the train-the-model-first warning
    and nothing else, even if the metrics request of that cycle was
    fulfilled. *)
Theorem first_failure_page :
  forall (m : settled (Response Payload.t)) (e : Error),
    err_message e <> "" ->
    Dashboard (cycle (m, rejected e) initial) =
      Normal (Page None (Some train_first_alert) None).
Proof.
  intros m e He.
  assert (Ht : truthy (err_message e) = true).
  { unfold truthy. destruct (err_message e); [contradiction | reflexivity]. }
  destruct m as [rm | em]; unfold Dashboard, render_train_first;
    cbn [cycle fst snd fetchData]; cbn; rewrite Ht; reflexivity.
Qed.

Lemma first_failure_page_witness :
  err_message network_error <> "" /\
  Dashboard (cycle (fulfilled (respond (complete sparse_metrics)), rejected network_error) initial) =
    Normal (Page None (Some train_first_alert) None).
Proof.
  split; [discriminate |].
  apply (first_failure_page (fulfilled (respond (complete sparse_metrics))) network_error).
  discriminate.
Defined.

(** X9: once metrics are stored and loading is over, failing status
    requests are invisible: after any number of cycles whose status
    request failed the page is exactly the page of before. *)
Theorem outage_is_invisible :
  forall (fs : list outcome) (s : ViewState),
    loading s = false ->
    metrics s <> None ->
    forallb (fun o => negb (status_fulfilled o)) fs = true ->
    Dashboard (cycles fs s) = Dashboard s.
Proof.
  induction fs as [| o fs IH]; intros s Hl Hm Hfs; [reflexivity |].
  cbn [forallb] in Hfs. apply andb_true_iff in Hfs. destruct Hfs as [Ho Hfs].
  apply negb_true_iff in Ho.
  destruct (metrics s) as [m |] eqn:Em; [| contradiction].
  rewrite cycles_cons, IH; try assumption.
  - rewrite (cycle_status_failed o s Ho).
    rewrite <- (Dashboard_ignores_error s
                  (if rejected_without_reason o then error s else reported_error o) m Em).
    unfold with_error, setError; cbn [snd]. rewrite Hl. reflexivity.
  - apply cycle_loading.
  - rewrite (cycle_status_failed o s Ho); cbn [metrics]. rewrite Em. discriminate.
Qed.

Lemma outage_is_invisible_witness :
  loading after_metrics = false /\
  metrics after_metrics <> None /\
  forallb (fun o => negb (status_fulfilled o))
    [(rejected network_error, rejected network_error);
     (fulfilled (respond (complete sparse_metrics)), rejected silent_error)] = true /\
  Dashboard (cycles [(rejected network_error, rejected network_error);
                     (fulfilled (respond (complete sparse_metrics)), rejected silent_error)]
                    after_metrics) = Dashboard after_metrics.
Proof.
  split; [reflexivity | split; [discriminate | split; [reflexivity |]]].
  apply (outage_is_invisible
           [(rejected network_error, rejected network_error);
            (fulfilled (respond (complete sparse_metrics)), rejected silent_error)]
           after_metrics); [reflexivity | discriminate | reflexivity].
Defined.

(** X10: on a rendered page the cards and the panel are present exactly
    when metrics are stored, and then the train-the-model-first warning is
    not: the page never shows both. *)
Theorem content_excludes_warning :
  forall s banner tf content,
    Dashboard s = Normal (Page banner tf content) ->
    (content = None <-> metrics s = None) /\
    (tf = None \/ content = None) /\
    (forall d, metrics s = Some d ->
               exists m, shape d = Normal m /\
                         content = Some (render_content m) /\ tf = None).
Proof.
  intros s banner tf content H.
  apply Dashboard_page in H. destruct H as (_ & -> & Hc & _).
  unfold render_train_first. unfold render_metrics in Hc.
  destruct (metrics s) as [d |].
  - destruct (shape d) as [m |] eqn:Es; [| discriminate]. injection Hc as <-.
    assert (Ht : match error s with
                 | Some e => if truthy e then @None Alert else None
                 | None => None
                 end = None)
      by (destruct (error s) as [e |]; [destruct (truthy e) |]; reflexivity).
    rewrite Ht.
    split; [split; discriminate |].
    split; [left; reflexivity |].
    intros d' Hd'. injection Hd' as <-. exists m. repeat split. exact Es.
  - injection Hc as <-.
    split; [split; reflexivity |].
    split; [right; reflexivity | intros d' Hd'; discriminate].
Qed.

Lemma content_excludes_warning_witness :
  Dashboard after_metrics =
    Normal (Page (Some {| severity := Severity.success; text := "Done " |}) None
                 (Some (render_content sparse_metrics))) /\
  (Some (render_content sparse_metrics) = None <-> metrics after_metrics = None) /\
  (@None Alert = None \/ Some (render_content sparse_metrics) = None) /\
  (forall d, metrics after_metrics = Some d ->
             exists m, shape d = Normal m /\
                       Some (render_content sparse_metrics) = Some (render_content m) /\
                       @None Alert = None).
Proof.
  split; [reflexivity |].
  apply (content_excludes_warning after_metrics
           (Some {| severity := Severity.success; text := "Done " |}) None
           (Some (render_content sparse_metrics))).
  reflexivity.
Defined.

(** X11: the text of the error is never displayed: two states that differ
    only in which non-empty message the error cell holds render alike. *)
Theorem error_text_is_not_shown :
  forall (s : ViewState) (e1 e2 : string),
    e1 <> "" -> e2 <> "" ->
    Dashboard (with_error (Some e1) s) = Dashboard (with_error (Some e2) s).
Proof.
  intros s e1 e2 H1 H2.
  assert (T1 : truthy e1 = true) by (destruct e1; [contradiction | reflexivity]).
  assert (T2 : truthy e2 = true) by (destruct e2; [contradiction | reflexivity]).
  unfold Dashboard, with_error, render_train_first, setError;
    cbn [snd metrics status loading error].
  rewrite T1, T2. reflexivity.
Qed.

Lemma error_text_is_not_shown_witness :
  "Network Error" <> "" /\ "timeout of 5000ms exceeded" <> "" /\
  Dashboard (with_error (Some "Network Error") after_failure) =
  Dashboard (with_error (Some "timeout of 5000ms exceeded") after_failure).
Proof.
  split; [discriminate | split; [discriminate |]].
  apply (error_text_is_not_shown after_failure); discriminate.
Defined.

(** X12: failures never clear the stored metrics: if metrics are stored,
    they are still stored after any further sequence of cycles in which
    every metrics response that gets stored (both requests fulfilled)
    brings a payload. *)
Theorem metrics_survive_failures :
  forall (os : list outcome) (s : ViewState),
    forallb brings_payload os = true ->
    metrics s <> None -> metrics (cycles os s) <> None.
Proof.
  induction os as [| o os IH]; intros s Hos Hm; [exact Hm |].
  cbn [forallb] in Hos. apply andb_true_iff in Hos. destruct Hos as [Ho Hos].
  rewrite cycles_cons. apply IH; [exact Hos |].
  destruct o as [[rm | em] [rs | [| | es]]]; cbn; try exact Hm.
  cbn in Ho. destruct (data rm); [discriminate | discriminate Ho].
Qed.

Lemma metrics_survive_failures_witness :
  forallb brings_payload
    [(rejected network_error, fulfilled (respond done_status));
     (rejected network_error, rejected reason_null);
     (fulfilled {| data := None |}, rejected network_error)] = true /\
  metrics after_metrics <> None /\
  metrics (cycles [(rejected network_error, fulfilled (respond done_status));
                   (rejected network_error, rejected reason_null);
                   (fulfilled {| data := None |}, rejected network_error)]
                  after_metrics) <> None.
Proof.
  split; [reflexivity | split; [discriminate |]].
  apply (metrics_survive_failures
           [(rejected network_error, fulfilled (respond done_status));
            (rejected network_error, rejected reason_null);
            (fulfilled {| data := None |}, rejected network_error)] after_metrics);
    [reflexivity | discriminate].
Defined.


(** X14: over the whole history from the initial state, a rendered page
    lacks the status banner exactly when no status request has been
    fulfilled so far, or the latest one that was fulfilled brought no
    status: the banner stays through later failures. *)
Theorem banner_history :
  forall (os : list outcome) banner tf content,
    Dashboard (cycles os initial) = Normal (Page banner tf content) ->
    (banner = None <->
     match find status_fulfilled (rev os) with
     | Some o => fetched_status o
     | None => None
     end = None).
Proof.
  intros os banner tf content H.
  assert (Hs : status (cycles os initial) =
               match find status_fulfilled (rev os) with
               | Some o => fetched_status o
               | None => None
               end).
  { clear H. induction os as [| x l IH] using rev_ind; [reflexivity |].
    rewrite cycles_snoc, rev_unit. cbn [find].
    destruct x as [[rm | em] [rs | [| | es]]]; try exact IH; reflexivity. }
  apply Dashboard_page in H. destruct H as (_ & _ & _ & H).
  rewrite <- Hs.
  destruct (status (cycles os initial)) as [st |].
  - destruct H as (a & -> & _). split; discriminate.
  - subst banner. split; reflexivity.
Qed.

Lemma banner_history_witness :
  Dashboard (cycles [(rejected network_error, rejected network_error);
                     (rejected network_error, fulfilled (respond done_status));
                     (rejected network_error, rejected network_error)] initial) =
    Normal (Page (Some {| severity := Severity.success; text := "Done " |})
                 (Some train_first_alert) None) /\
  (Some {| severity := Severity.success; text := "Done " |} = None <->
   match find status_fulfilled
           (rev [(rejected network_error, rejected network_error);
                 (rejected network_error, fulfilled (respond done_status));
                 (rejected network_error, rejected network_error)]) with
   | Some o => fetched_status o
   | None => None
   end = None).
Proof.
  split; [reflexivity |].
  apply (banner_history
           [(rejected network_error, rejected network_error);
            (rejected network_error, fulfilled (respond done_status));
            (rejected network_error, rejected network_error)]
           (Some {| severity := Severity.success; text := "Done " |})
           (Some train_first_alert) None).
  reflexivity.
Defined.

(** ** The privacy panel and the improvement chip *)

(** X15: the attack-defense rows have no fallback: with the attack results
    present, a missing [membership_inference] or [model_inversion] object,
    or a missing overall rate, is printed as NaN%, and an overall rate of
    [null] as 0.0%; without attack results the rows are left out. *)
Theorem missing_attack_results :
  forall (p : PrivacyParams) (a : PrivacyAttacks),
    defense (PrivacyMetrics p None) = None /\
    exists o mi inv,
      defense (PrivacyMetrics p (Some a)) = Some (o, mi, inv) /\
      (membership_inference a = None -> mi = "NaN%") /\
      (model_inversion a = None -> inv = "NaN%") /\
      (overall_defense_rate a = undefined -> o = "NaN%") /\
      (overall_defense_rate a = null -> o = "0.0%").
Proof.
  intros p a. split; [reflexivity |].
  exists (percent (overall_defense_rate a)), (percent (membership_rate a)),
         (percent (inversion_score a)).
  split; [reflexivity |].
  unfold membership_rate, inversion_score.
  repeat split; intros ->; reflexivity.
Qed.

(** X16: an improvement that is positive but below 0.05 passes the guard
    and is rounded to one fraction digit, so the card carries a chip that
    reads +0.0%. *)
Theorem tiny_improvement_label :
  forall (t v : string) (sub : option string) (x : JS.number),
    positive_below x 1 20 ->
    chip (MetricCard t v (num x) sub) = Some "+0.0%".
Proof.
  intros t v sub x Hx.
  destruct x as [| | | [|] m e]; try contradiction.
  cbn [positive_below] in Hx.
  unfold MetricCard; cbn [chip]. unfold improvement_chip; cbn [ToNumber andb].
  change (JS.gtb (S754_finite false m e) (JS.of_Z 0)) with true. cbn iota.
  cbn [JS.toFixed].
  destruct (magnitude_pos m e) as [Ha Hb].
  destruct (JS.magnitude m e) as [a b]; cbn [fst snd] in *.
  unfold JS.ratio_geb; cbn [fst snd].
  change (10 ^ 21) with 1000000000000000000000.
  replace (1000000000000000000000 * b <=? a) with false
    by (symmetry; apply Z.leb_gt; lia).
  unfold JS.round_half_up, JS.scale10; cbn [fst snd].
  change (10 ^ Z.max 0 (- - Z.of_nat 1)) with 10.
  change (10 ^ Z.max 0 (- Z.of_nat 1)) with 1.
  rewrite Z.div_small by lia.
  reflexivity.
Qed.

Lemma tiny_improvement_label_witness :
  positive_below four_hundredths 1 20 /\
  chip (MetricCard "Recall" "0.8800" (num four_hundredths) None) = Some "+0.0%".
Proof.
  split; [vm_compute; reflexivity |].
  apply (tiny_improvement_label "Recall" "0.8800" None four_hundredths).
  vm_compute; reflexivity.
Defined.

(** ** Mounting beside other timers *)

Lemma filter_other_handles (n : nat) (l : list timer) :
  Forall (fun t => (handle t < n)%nat) l ->
  filter (fun t => negb (handle t =? n)%nat) l = l.
Proof.
  induction 1 as [| t l Ht _ IH]; [reflexivity |].
  cbn [filter]. replace (handle t =? n)%nat with false
    by (symmetry; apply Nat.eqb_neq; lia).
  cbn [negb]. rewrite IH. reflexivity.
Qed.

(** X17: on a host whose handles were handed out in order, mounting
    starts one cycle and adds one timer, and the cleanup removes that timer
    and no other: the timer table is back to what it was, so the timers of
    other components keep running. *)
Theorem cleanup_removes_own_timer :
  forall h : host,
    well_formed h ->
    started (fst (mount h)) = (started h ++ [clock h])%list /\
    length (timers (fst (mount h))) = S (length (timers h)) /\
    well_formed (fst (mount h)) /\
    timers (unmount (snd (mount h)) (fst (mount h))) = timers h /\
    started (unmount (snd (mount h)) (fst (mount h))) = started (fst (mount h)).
Proof.
  intros h Hwf. unfold well_formed in *.
  unfold mount, unmount, effect, setInterval, invoke, clearInterval;
    cbn [fst snd clock timers next_handle started].
  repeat match goal with |- _ /\ _ => split end; try reflexivity.
  - rewrite length_app. cbn [length]. lia.
  - apply Forall_app. split.
    + eapply Forall_impl; [| exact Hwf]. cbn. intros t Ht. lia.
    + constructor; [cbn; lia | constructor].
  - rewrite filter_app, (filter_other_handles _ _ Hwf). cbn [filter handle].
    rewrite Nat.eqb_refl. cbn. apply app_nil_r.
Qed.

Lemma cleanup_removes_own_timer_witness :
  well_formed (fst (mount (boot 0))) /\
  started (fst (mount (fst (mount (boot 0))))) =
    (started (fst (mount (boot 0))) ++ [clock (fst (mount (boot 0)))])%list /\
  length (timers (fst (mount (fst (mount (boot 0)))))) =
    S (length (timers (fst (mount (boot 0))))) /\
  well_formed (fst (mount (fst (mount (boot 0))))) /\
  timers (unmount (snd (mount (fst (mount (boot 0))))) (fst (mount (fst (mount (boot 0))))))
    = timers (fst (mount (boot 0))) /\
  started (unmount (snd (mount (fst (mount (boot 0))))) (fst (mount (fst (mount (boot 0))))))
    = started (fst (mount (fst (mount (boot 0))))).
Proof.
  assert (H : well_formed (fst (mount (boot 0)))).
  { unfold well_formed. cbn. constructor; [cbn; lia | constructor]. }
  split; [exact H |].
  apply (cleanup_removes_own_timer (fst (mount (boot 0)))). exact H.
Defined.
